(** * FinPilot MCP: the gateway client and its tool handlers

    A shallow embedding of [finpilot_mcp/constants.py], [config.py],
    [client.py] and the tool handlers and entry point of [server.py],
    followed by the properties of the request/response bridging layer.

    Conventions.
    - Python objects that travel as JSON are terms of [value]; a [dict] is
      an association list in insertion order, as a Python dict literal
      builds it.
    - [dict[str, str]] headers and the process environment are finite maps.
    - A Python [float] is a [spec_float]; only its truth value is used.
    - [await client.request(...)] is the single suspension point of a call;
      a computation that may await is a term of [io].
    - An exception that leaves a function is an [Err] result. *)

From Stdlib Require Import ZArith List.
From Stdlib Require Import Floats.SpecFloat.
From stdpp Require Import gmap strings pretty.

Local Open Scope Z_scope.
Local Open Scope string_scope.

(** ** Python values *)

#[local] Set Warnings "-register-all".

Inductive value : Type :=
| VNone
| VBool (b : bool)
| VInt (n : Z)
| VFloat (x : spec_float)
| VStr (s : string)
| VList (items : list value)
| VDict (fields : list (string * value)).

Abbreviation dict := (list (string * value)).

(** [d.get(key, default)] *)
Fixpoint dict_get (key : string) (default : value) (d : dict) : value :=
  match d with
  | [] => default
  | (k, v) :: rest => if String.eqb k key then v else dict_get key default rest
  end.

(** [key in d] *)
Definition dict_has (key : string) (d : dict) : bool :=
  existsb (fun kv => String.eqb (fst kv) key) d.

(** Truth value of an [Optional[str]]: [None] and [""] are false. *)
Definition str_truthy (o : option string) : bool :=
  match o with
  | Some s => negb (String.eqb s "")
  | None => false
  end.

(** Truth value of a [float]: only the two zeros are false. *)
Definition float_truthy (x : spec_float) : bool :=
  match x with
  | S754_zero _ => false
  | _ => true
  end.

(** An optional argument as the Python object it is. *)
Definition of_opt_str (o : option string) : value :=
  match o with Some s => VStr s | None => VNone end.

Definition of_opt_dict (o : option dict) : value :=
  match o with Some d => VDict d | None => VNone end.

Definition of_dicts (l : list dict) : value := VList (map VDict l).

Definition of_opt_dicts (o : option (list dict)) : value :=
  match o with Some l => of_dicts l | None => VNone end.

(** [type(v).__name__] *)
Definition type_name (v : value) : string :=
  match v with
  | VNone => "NoneType"
  | VBool _ => "bool"
  | VInt _ => "int"
  | VFloat _ => "float"
  | VStr _ => "str"
  | VList _ => "list"
  | VDict _ => "dict"
  end.

Inductive result (A E : Type) : Type :=
| Ok (a : A)
| Err (e : E).
Arguments Ok {A E} a.
Arguments Err {A E} e.

(** ** constants.py *)

Module Constants.

Definition DEFAULT_API_GATEWAY_URL : string := "https://api.finpilot.ai".

Definition LOCAL_API_GATEWAY_URL : string := "http://localhost:8000".

Definition ENDPOINTS : gmap string string :=
  {[ "credit_analyze" := "/v1/credit/analyze";
     "credit_health" := "/v1/credit/health";
     "portfolio_analyze" := "/v1/portfolio/analyze";
     "loan_optimize" := "/v1/loans/optimize";
     "financial_plan" := "/v1/plan/create" ]}.

(** 30.0 and 120.0 as binary64 values. *)
Definition DEFAULT_TIMEOUT : spec_float :=
  S754_finite false 8444249301319680 (-48).
Definition UPLOAD_TIMEOUT : spec_float :=
  S754_finite false 8444249301319680 (-46).

End Constants.

(** ** config.py *)

Module Settings.

Record t : Type := mk {
  api_gateway_url : string;
  api_key : option string;
  jwt_token : option string;
  environment : string;
  request_timeout : spec_float;
  upload_timeout : spec_float
}.

(** The field defaults, used when the environment sets nothing. *)
Definition defaults : t :=
  {| api_gateway_url := Constants.DEFAULT_API_GATEWAY_URL;
     api_key := None;
     jwt_token := None;
     environment := "production";
     request_timeout := Constants.DEFAULT_TIMEOUT;
     upload_timeout := Constants.UPLOAD_TIMEOUT |}.

Definition is_local_dev (self : t) : bool :=
  String.eqb (environment self) "development".

(** [os.getenv(name, default)] on the process environment. *)
Definition getenv (environ : gmap string string) (name default : string)
  : string :=
  match environ !! name with
  | Some v => v
  | None => default
  end.

Definition effective_gateway_url (environ : gmap string string) (self : t)
  : string :=
  if is_local_dev self
  then getenv environ "FINPILOT_API_GATEWAY_URL"
              Constants.LOCAL_API_GATEWAY_URL
  else api_gateway_url self.

Definition has_auth (self : t) : bool :=
  match api_key self, jwt_token self with
  | None, None => false
  | _, _ => true
  end.

(** Attribute assignment on the settings object. *)
Definition set_api_gateway_url (v : string) (self : t) : t :=
  {| api_gateway_url := v;
     api_key := api_key self;
     jwt_token := jwt_token self;
     environment := environment self;
     request_timeout := request_timeout self;
     upload_timeout := upload_timeout self |}.

Definition set_environment (v : string) (self : t) : t :=
  {| api_gateway_url := api_gateway_url self;
     api_key := api_key self;
     jwt_token := jwt_token self;
     environment := v;
     request_timeout := request_timeout self;
     upload_timeout := upload_timeout self |}.

End Settings.

(** ** The part of httpx the client relies on *)

Module Httpx.

(** The exception classes of httpx, each with its direct base class. *)
Inductive exc_class : Type :=
| HTTPError
| RequestError
| TransportError
| TimeoutException
| ConnectTimeout | ReadTimeout | WriteTimeout | PoolTimeout
| NetworkError
| ConnectError | ReadError | WriteError | CloseError
| ProtocolError
| LocalProtocolError | RemoteProtocolError
| ProxyError
| UnsupportedProtocol
| DecodingError
| TooManyRedirects
| HTTPStatusError
| InvalidURL
| CookieConflict.

Definition base (c : exc_class) : option exc_class :=
  match c with
  | HTTPError => None
  | RequestError => Some HTTPError
  | TransportError => Some RequestError
  | TimeoutException => Some TransportError
  | ConnectTimeout | ReadTimeout | WriteTimeout | PoolTimeout =>
      Some TimeoutException
  | NetworkError => Some TransportError
  | ConnectError | ReadError | WriteError | CloseError => Some NetworkError
  | ProtocolError => Some TransportError
  | LocalProtocolError | RemoteProtocolError => Some ProtocolError
  | ProxyError => Some TransportError
  | UnsupportedProtocol => Some TransportError
  | DecodingError => Some RequestError
  | TooManyRedirects => Some RequestError
  | HTTPStatusError => Some HTTPError
  | InvalidURL => None
  | CookieConflict => None
  end.

#[export] Instance exc_class_eq_dec : EqDecision exc_class.
Proof. solve_decision. Defined.

(** [issubclass(c, d)], walking up the chain of bases; the chain of any
    class has at most five links. *)
Fixpoint issubclass_upto (fuel : nat) (c d : exc_class) : bool :=
  if bool_decide (c = d) then true
  else match fuel with
       | O => false
       | S fuel' =>
           match base c with
           | Some b => issubclass_upto fuel' b d
           | None => false
           end
       end.

Definition issubclass (c d : exc_class) : bool := issubclass_upto 5 c d.

(** A raised exception: its class and what [str(e)] gives. *)
Record exception : Type := {
  cls : exc_class;
  description : string
}.

Definition isinstance (e : exception) (c : exc_class) : bool :=
  issubclass (cls e) c.

(** What [response.json()] does: raise or return the decoded object. *)
Inductive decoding : Type :=
| Undecodable (msg : string)
| Decoded (v : value).

Record Response : Type := {
  status_code : Z;
  content : string;
  json : decoding
}.

(** The keyword arguments of [client.request]. *)
Record Request : Type := {
  method : string;
  url : string;
  headers : gmap string string;
  body : option dict;
  timeout : spec_float
}.

(** How an awaited [client.request] ends. *)
Inductive outcome : Type :=
| Responded (response : Response)
| Raised (e : exception).

End Httpx.

(** ** Awaiting *)

Inductive io (A : Type) : Type :=
| Return (a : A)
| Await (req : Httpx.Request) (k : Httpx.outcome -> io A).
Arguments Return {A} a.
Arguments Await {A} req k.

Fixpoint io_bind {A B : Type} (m : io A) (f : A -> io B) : io B :=
  match m with
  | Return a => f a
  | Await req k => Await req (fun o => io_bind (k o) f)
  end.

Notation "'let*' x := m 'in' f" := (io_bind m (fun x => f))
  (at level 10, x name, m at level 100, f at level 200).

(** Running a computation against a gateway that answers each request. *)
Fixpoint run {A : Type} (gateway : Httpx.Request -> Httpx.outcome) (m : io A)
  : A :=
  match m with
  | Return a => a
  | Await req k => run gateway (k (gateway req))
  end.

(** The requests a computation sends, in order. *)
Fixpoint sent {A : Type} (gateway : Httpx.Request -> Httpx.outcome)
  (m : io A) : list Httpx.Request :=
  match m with
  | Return _ => []
  | Await req k => req :: sent gateway (k (gateway req))
  end.

(** ** client.py *)

Module Client.

(** The exceptions that can leave a client method.  All of them derive
    from Python's [Exception]. *)
Inductive exception : Type :=
| FinPilotAPIError (status_code : Z) (message : value) (details : dict)
| JSONDecodeError (msg : string)
| AttributeError (msg : string)
| HttpxError (e : Httpx.exception).

(** [FinPilotAPIError.__init__]: [self.details = details or {}]. *)
Definition new_FinPilotAPIError (status_code : Z) (message : value)
  (details : option dict) : exception :=
  FinPilotAPIError status_code message
    match details with
    | Some ((_ :: _) as d) => d
    | Some [] | None => []
    end.

Section Str.
(** [str(v)] for an object [v] that is not a [str]. *)
Variable repr : value -> string.

Definition str_of (v : value) : string :=
  match v with
  | VStr s => s
  | _ => repr v
  end.

(** [str(e)]; for [FinPilotAPIError] it is the text handed to
    [super().__init__]. *)
Definition str (e : exception) : string :=
  match e with
  | FinPilotAPIError status_code message _ =>
      "API Error " +:+ pretty status_code +:+ ": " +:+ str_of message
  | JSONDecodeError msg => msg
  | AttributeError msg => msg
  | HttpxError e => Httpx.description e
  end.
End Str.

Record t : Type := {
  base_url : string;
  timeout : spec_float;
  upload_timeout : spec_float
}.

(** [FinPilotClient.__init__], reading the settings object as it is when
    the client is constructed. *)
Definition init (environ : gmap string string) (settings : Settings.t) : t :=
  {| base_url := Settings.effective_gateway_url environ settings;
     timeout := Settings.request_timeout settings;
     upload_timeout := Settings.upload_timeout settings |}.

(** [_get_headers] reads the settings object at the time of the call. *)
Definition _get_headers (settings : Settings.t) : gmap string string :=
  let headers : gmap string string :=
    {[ "Content-Type" := "application/json";
       "User-Agent" := "finpilot-mcp/0.1.0" ]} in
  if str_truthy (Settings.jwt_token settings) then
    <["Authorization" :=
        "Bearer " +:+ default "" (Settings.jwt_token settings)]> headers
  else if str_truthy (Settings.api_key settings) then
    <["X-API-Key" := default "" (Settings.api_key settings)]> headers
  else headers.

(** [timeout or self.timeout] *)
Definition timeout_or (timeout : option spec_float) (fallback : spec_float)
  : spec_float :=
  match timeout with
  | Some x => if float_truthy x then x else fallback
  | None => fallback
  end.

(** [error_data.get("message", ...)] receives whatever [response.json()]
    returned; only a dict has [get]. *)
Definition no_get (v : value) : string :=
  "'" +:+ type_name v +:+ "' object has no attribute 'get'".

(** What [_request] does once the awaited request has ended: the body of
    the [try] after the call, then the two [except] clauses in order. *)
Definition settle (o : Httpx.outcome) : result value exception :=
  match o with
  | Httpx.Responded response =>
      if (400 <=? Httpx.status_code response)%Z then
        let error_data :=
          if negb (String.eqb (Httpx.content response) "")
          then Httpx.json response
          else Httpx.Decoded (VDict []) in
        match error_data with
        | Httpx.Undecodable msg => Err (JSONDecodeError msg)
        | Httpx.Decoded (VDict d) =>
            Err (new_FinPilotAPIError
                   (Httpx.status_code response)
                   (dict_get "message" (VStr "API request failed") d)
                   (Some d))
        | Httpx.Decoded v => Err (AttributeError (no_get v))
        end
      else
        match Httpx.json response with
        | Httpx.Undecodable msg => Err (JSONDecodeError msg)
        | Httpx.Decoded v => Ok v
        end
  | Httpx.Raised e =>
      if Httpx.isinstance e Httpx.TimeoutException then
        Err (new_FinPilotAPIError 504 (VStr "Request timeout")
               (Some [("error", VStr (Httpx.description e))]))
      else if Httpx.isinstance e Httpx.RequestError then
        Err (new_FinPilotAPIError 503 (VStr "Failed to connect to API")
               (Some [("error", VStr (Httpx.description e))]))
      else Err (HttpxError e)
  end.

Definition _request (settings : Settings.t) (self : t)
  (method endpoint : string) (json : option dict)
  (timeout : option spec_float) : io (result value exception) :=
  let url := base_url self +:+ endpoint in
  let headers := _get_headers settings in
  let timeout_val := timeout_or timeout (Client.timeout self) in
  Await {| Httpx.method := method;
           Httpx.url := url;
           Httpx.headers := headers;
           Httpx.body := json;
           Httpx.timeout := timeout_val |}
        (fun o => Return (settle o)).

(** [ENDPOINTS[key]] for the five keys of the table. *)
Definition endpoint (key : string) : string :=
  default "" (Constants.ENDPOINTS !! key).

Definition analyze_credit_report (settings : Settings.t) (self : t)
  (pdf_base64 : string) (bureau : option string)
  : io (result value exception) :=
  _request settings self "POST" (endpoint "credit_analyze")
    (Some [("pdf_base64", VStr pdf_base64); ("bureau", of_opt_str bureau)])
    (Some (upload_timeout self)).

Definition get_credit_health (settings : Settings.t) (self : t)
  (user_id : option string) : io (result value exception) :=
  let params : dict :=
    if str_truthy user_id then [("user_id", of_opt_str user_id)] else [] in
  _request settings self "GET" (endpoint "credit_health")
    (Some params)
    None.

Definition analyze_portfolio (settings : Settings.t) (self : t)
  (cas_pdf_base64 : option string) (portfolio_data : option dict)
  : io (result value exception) :=
  _request settings self "POST" (endpoint "portfolio_analyze")
    (Some [("cas_pdf_base64", of_opt_str cas_pdf_base64);
           ("portfolio_data", of_opt_dict portfolio_data)])
    (Some (upload_timeout self)).

Definition optimize_loans (settings : Settings.t) (self : t)
  (loans : option (list dict)) (user_id : option string)
  : io (result value exception) :=
  _request settings self "POST" (endpoint "loan_optimize")
    (Some [("loans", of_opt_dicts loans); ("user_id", of_opt_str user_id)])
    None.

Definition create_financial_plan (settings : Settings.t) (self : t)
  (goals : list dict) (current_situation : dict) (user_id : option string)
  : io (result value exception) :=
  _request settings self "POST" (endpoint "financial_plan")
    (Some [("goals", of_dicts goals);
           ("current_situation", VDict current_situation);
           ("user_id", of_opt_str user_id)])
    None.

End Client.

(** ** server.py *)

Module Server.

(** The two module-level objects the handlers share: [config.settings]
    and [client.client]. *)
Record globals : Type := {
  settings : Settings.t;
  client : Client.t
}.

(** Importing the package: [settings = Settings()] has produced [loaded]
    from the environment, and [client = FinPilotClient()] is built from
    it at the bottom of client.py. *)
Definition import (environ : gmap string string) (loaded : Settings.t)
  : globals :=
  {| settings := loaded;
     client := Client.init environ loaded |}.

(** The tool envelopes. *)
Definition success (result : value) : dict :=
  [("status", VStr "success"); ("data", result)].

Definition error (message : string) : dict :=
  [("status", VStr "error"); ("error", VStr message)].

Section Tools.
Variable repr : value -> string.
Variable g : globals.

(** The [try]/[except Exception] every handler wraps its call in. *)
Definition envelope (r : result value Client.exception) : dict :=
  match r with
  | Ok result => success result
  | Err e => error (Client.str repr e)
  end.

Definition analyze_credit_report (pdf_base64 : string)
  (bureau : option string) : io dict :=
  let* r := Client.analyze_credit_report (settings g) (client g)
              pdf_base64 bureau in
  Return (envelope r).

Definition get_credit_health (user_id : option string) : io dict :=
  let* r := Client.get_credit_health (settings g) (client g) user_id in
  Return (envelope r).

Definition analyze_portfolio (cas_pdf_base64 : option string)
  (portfolio_data : option dict) : io dict :=
  let* r := Client.analyze_portfolio (settings g) (client g)
              cas_pdf_base64 portfolio_data in
  Return (envelope r).

Definition optimize_loans (loans : option (list dict))
  (user_id : option string) : io dict :=
  let* r := Client.optimize_loans (settings g) (client g) loans user_id in
  Return (envelope r).

Definition create_financial_plan (goals : list dict)
  (current_situation : dict) (user_id : option string) : io dict :=
  let* r := Client.create_financial_plan (settings g) (client g)
              goals current_situation user_id in
  Return (envelope r).
End Tools.

(** A tool invocation as the host hands it over: the tool and its
    arguments. *)
Inductive invocation : Type :=
| AnalyzeCreditReport (pdf_base64 : string) (bureau : option string)
| GetCreditHealth (user_id : option string)
| AnalyzePortfolio (cas_pdf_base64 : option string)
    (portfolio_data : option dict)
| OptimizeLoans (loans : option (list dict)) (user_id : option string)
| CreateFinancialPlan (goals : list dict) (current_situation : dict)
    (user_id : option string).

(** Dispatch by the host runtime to the registered handler. *)
Definition call_tool (repr : value -> string) (g : globals)
  (i : invocation) : io dict :=
  match i with
  | AnalyzeCreditReport pdf_base64 bureau =>
      analyze_credit_report repr g pdf_base64 bureau
  | GetCreditHealth user_id => get_credit_health repr g user_id
  | AnalyzePortfolio cas_pdf_base64 portfolio_data =>
      analyze_portfolio repr g cas_pdf_base64 portfolio_data
  | OptimizeLoans loans user_id => optimize_loans repr g loans user_id
  | CreateFinancialPlan goals current_situation user_id =>
      create_financial_plan repr g goals current_situation user_id
  end.

(** The client method behind each tool. *)
Definition client_call (g : globals) (i : invocation)
  : io (result value Client.exception) :=
  match i with
  | AnalyzeCreditReport pdf_base64 bureau =>
      Client.analyze_credit_report (settings g) (client g) pdf_base64 bureau
  | GetCreditHealth user_id =>
      Client.get_credit_health (settings g) (client g) user_id
  | AnalyzePortfolio cas_pdf_base64 portfolio_data =>
      Client.analyze_portfolio (settings g) (client g)
        cas_pdf_base64 portfolio_data
  | OptimizeLoans loans user_id =>
      Client.optimize_loans (settings g) (client g) loans user_id
  | CreateFinancialPlan goals current_situation user_id =>
      Client.create_financial_plan (settings g) (client g)
        goals current_situation user_id
  end.

(** The names of the parameters of each operation. *)
Definition parameters (i : invocation) : list string :=
  match i with
  | AnalyzeCreditReport _ _ => ["pdf_base64"; "bureau"]
  | GetCreditHealth _ => ["user_id"]
  | AnalyzePortfolio _ _ => ["cas_pdf_base64"; "portfolio_data"]
  | OptimizeLoans _ _ => ["loans"; "user_id"]
  | CreateFinancialPlan _ _ _ => ["goals"; "current_situation"; "user_id"]
  end.

(** The arguments of an invocation as Python objects, by name. *)
Definition arguments (i : invocation) : dict :=
  match i with
  | AnalyzeCreditReport pdf_base64 bureau =>
      [("pdf_base64", VStr pdf_base64); ("bureau", of_opt_str bureau)]
  | GetCreditHealth user_id => [("user_id", of_opt_str user_id)]
  | AnalyzePortfolio cas_pdf_base64 portfolio_data =>
      [("cas_pdf_base64", of_opt_str cas_pdf_base64);
       ("portfolio_data", of_opt_dict portfolio_data)]
  | OptimizeLoans loans user_id =>
      [("loans", of_opt_dicts loans); ("user_id", of_opt_str user_id)]
  | CreateFinancialPlan goals current_situation user_id =>
      [("goals", of_dicts goals);
       ("current_situation", VDict current_situation);
       ("user_id", of_opt_str user_id)]
  end.

(** Whether the operation is one of the two that upload a document. *)
Definition is_upload (i : invocation) : bool :=
  match i with
  | AnalyzeCreditReport _ _ | AnalyzePortfolio _ _ => true
  | _ => false
  end.

(** The parsed command line, as far as [main] uses it before serving. *)
Record args : Type := {
  api_gateway_url : option string;
  environment : option string
}.

Inductive started : Type :=
| Exit (code : Z)
| Serving (g : globals).

(** [main] up to the point where the server starts: the two overrides
    are assigned to the settings object, then credentials are checked. *)
Definition main (a : args) (g : globals) : started :=
  let settings1 :=
    if str_truthy (api_gateway_url a)
    then Settings.set_api_gateway_url (default "" (api_gateway_url a))
           (settings g)
    else settings g in
  let settings2 :=
    if str_truthy (environment a)
    then Settings.set_environment (default "" (environment a)) settings1
    else settings1 in
  if negb (Settings.has_auth settings2) then Exit 1
  else Serving {| settings := settings2; client := client g |}.

(** The gateway line of the startup banner. *)
Definition banner_gateway (environ : gmap string string) (g : globals)
  : string :=
  Settings.effective_gateway_url environ (settings g).

(** The two resources.  Both read [settings.has_auth] when they are
    fetched. *)
Definition no_auth_text : string :=
  "No authentication configured. Set FINPILOT_API_KEY or FINPILOT_JWT_TOKEN environment variable.".

Definition get_user_profile (g : globals) : string :=
  if negb (Settings.has_auth (settings g)) then no_auth_text
  else "User profile resource - to be implemented".

Definition get_user_portfolio (g : globals) : string :=
  if negb (Settings.has_auth (settings g)) then no_auth_text
  else "User portfolio resource - to be implemented".

End Server.

(** ** Vocabulary of the statements *)

(** The body of a request has a key for every parameter of the operation. *)
Definition has_every_parameter (req : Httpx.Request) (i : Server.invocation)
  : Prop :=
  exists b, Httpx.body req = Some b
            /\ forall name, In name (Server.parameters i) ->
                            dict_has name b = true.

(** The one case in which a client method leaves a parameter out of the
    body: [get_credit_health] with no user id, or an empty one. *)
Definition leaves_out_user_id (i : Server.invocation) : bool :=
  match i with
  | Server.GetCreditHealth user_id => negb (str_truthy user_id)
  | _ => false
  end.

(** A gateway that ends every request the same way. *)
Definition always (o : Httpx.outcome) : Httpx.Request -> Httpx.outcome :=
  fun _ => o.

(** Settings with an API key, all else at its default. *)
Definition with_api_key (key : string) : Settings.t :=
  {| Settings.api_gateway_url := Constants.DEFAULT_API_GATEWAY_URL;
     Settings.api_key := Some key;
     Settings.jwt_token := None;
     Settings.environment := "production";
     Settings.request_timeout := Constants.DEFAULT_TIMEOUT;
     Settings.upload_timeout := Constants.UPLOAD_TIMEOUT |}.

(** Settings with an API key and an upload timeout of 0.0. *)
Definition with_zero_upload_timeout (key : string) : Settings.t :=
  {| Settings.api_gateway_url := Constants.DEFAULT_API_GATEWAY_URL;
     Settings.api_key := Some key;
     Settings.jwt_token := None;
     Settings.environment := "production";
     Settings.request_timeout := Constants.DEFAULT_TIMEOUT;
     Settings.upload_timeout := S754_zero false |}.

(** A connection that is refused. *)
Definition refused : Httpx.outcome :=
  Httpx.Raised {| Httpx.cls := Httpx.ConnectError;
                  Httpx.description := "All connection attempts failed" |}.

(** Every request the computation sends to the gateway ends as [o]. *)
Definition ends_as {A : Type} (gateway : Httpx.Request -> Httpx.outcome)
  (m : io A) (o : Httpx.outcome) : Prop :=
  forall req, In req (sent gateway m) -> gateway req = o.

(** A read that times out. *)
Definition timed_out : Httpx.exception :=
  {| Httpx.cls := Httpx.ReadTimeout;
     Httpx.description := "The read operation timed out" |}.

(** The double quote character. *)
Definition dquote : string :=
  String (Ascii.Ascii false true false false false true false false)
         EmptyString.

(** Status 404 with the body [{"message": "not found"}]. *)
Definition not_found : Httpx.Response :=
  {| Httpx.status_code := 404;
     Httpx.content := "{" +:+ dquote +:+ "message" +:+ dquote +:+ ": "
                      +:+ dquote +:+ "not found" +:+ dquote +:+ "}";
     Httpx.json := Httpx.Decoded (VDict [("message", VStr "not found")]) |}.

(** Status 502 with an HTML page for a body, as a proxy in front of the
    gateway answers; [response.json()] raises on it. *)
Definition bad_gateway_page : Httpx.Response :=
  {| Httpx.status_code := 502;
     Httpx.content := "<html><body>502 Bad Gateway</body></html>";
     Httpx.json :=
       Httpx.Undecodable "Expecting value: line 1 column 1 (char 0)" |}.

(** Status 200 with a body that is not JSON. *)
Definition ok_but_not_json : Httpx.Response :=
  {| Httpx.status_code := 200;
     Httpx.content := "<html><body>maintenance</body></html>";
     Httpx.json :=
       Httpx.Undecodable "Expecting value: line 1 column 1 (char 0)" |}.

(** Status 200 with the body [[750, 12]]. *)
Definition ok_with_scores : Httpx.Response :=
  {| Httpx.status_code := 200;
     Httpx.content := "[750, 12]";
     Httpx.json := Httpx.Decoded (VList [VInt 750; VInt 12]) |}.

(** Two invocations are of the same tool. *)
Definition same_tool (i j : Server.invocation) : bool :=
  match i, j with
  | Server.AnalyzeCreditReport _ _, Server.AnalyzeCreditReport _ _
  | Server.GetCreditHealth _, Server.GetCreditHealth _
  | Server.AnalyzePortfolio _ _, Server.AnalyzePortfolio _ _
  | Server.OptimizeLoans _ _, Server.OptimizeLoans _ _
  | Server.CreateFinancialPlan _ _ _, Server.CreateFinancialPlan _ _ _ => true
  | _, _ => false
  end.

(** A credential is absent or the empty string. *)
Definition blank (o : option string) : Prop := o = None \/ o = Some "".

(** Status 500 with no body. *)
Definition server_error_no_body : Httpx.Response :=
  {| Httpx.status_code := 500;
     Httpx.content := "";
     Httpx.json := Httpx.Undecodable "Expecting value: line 1 column 1 (char 0)" |}.

(** Status 422 with the body [{"detail": "bureau"}], which has no
    "message". *)
Definition unprocessable : Httpx.Response :=
  {| Httpx.status_code := 422;
     Httpx.content := "{" +:+ dquote +:+ "detail" +:+ dquote +:+ ": "
                      +:+ dquote +:+ "bureau" +:+ dquote +:+ "}";
     Httpx.json := Httpx.Decoded (VDict [("detail", VStr "bureau")]) |}.

(** Status 500 with the body [[1]]. *)
Definition server_error_list : Httpx.Response :=
  {| Httpx.status_code := 500;
     Httpx.content := "[1]";
     Httpx.json := Httpx.Decoded (VList [VInt 1]) |}.

(** A base URL that httpx cannot parse. *)
Definition invalid_url : Httpx.exception :=
  {| Httpx.cls := Httpx.InvalidURL;
     Httpx.description := "Invalid port" |}.

(** Settings whose only credential is an API key set to the empty
    string. *)
Definition with_empty_api_key : Settings.t :=
  {| Settings.api_gateway_url := Constants.DEFAULT_API_GATEWAY_URL;
     Settings.api_key := Some "";
     Settings.jwt_token := None;
     Settings.environment := "production";
     Settings.request_timeout := Constants.DEFAULT_TIMEOUT;
     Settings.upload_timeout := Constants.UPLOAD_TIMEOUT |}.

(** The path each tool is served under. *)
Definition path_of (i : Server.invocation) : string :=
  match i with
  | Server.AnalyzeCreditReport _ _ => "/v1/credit/analyze"
  | Server.GetCreditHealth _ => "/v1/credit/health"
  | Server.AnalyzePortfolio _ _ => "/v1/portfolio/analyze"
  | Server.OptimizeLoans _ _ => "/v1/loans/optimize"
  | Server.CreateFinancialPlan _ _ _ => "/v1/plan/create"
  end.

(** A rendering of non-string objects, for the examples; none of them
    depends on it. *)
Definition plain_repr (v : value) : string := "<" +:+ type_name v +:+ ">".

(** * Properties *)

(** ** Requests sent by a call *)

Section Sent.
Variable repr : value -> string.
Variable g : Server.globals.
Variable gateway : Httpx.Request -> Httpx.outcome.

Lemma sent_bind {A B : Type} (m : io A) (f : A -> io B) :
  sent gateway (io_bind m f) =
  (sent gateway m ++ sent gateway (f (run gateway m)))%list.
Proof.
  induction m as [a | req k IH]; simpl.
  - reflexivity.
  - now rewrite IH.
Qed.

Lemma run_bind {A B : Type} (m : io A) (f : A -> io B) :
  run gateway (io_bind m f) = run gateway (f (run gateway m)).
Proof.
  induction m as [a | req k IH]; simpl; [reflexivity | apply IH].
Qed.

(** The one request of [_request], spelled out. *)
Lemma sent_request settings self method endpoint json timeout :
  sent gateway (Client._request settings self method endpoint json timeout) =
  [ {| Httpx.method := method;
       Httpx.url := Client.base_url self +:+ endpoint;
       Httpx.headers := Client._get_headers settings;
       Httpx.body := json;
       Httpx.timeout := Client.timeout_or timeout (Client.timeout self) |} ].
Proof. reflexivity. Qed.

Lemma run_request settings self method endpoint json timeout :
  run gateway (Client._request settings self method endpoint json timeout) =
  Client.settle (gateway
    {| Httpx.method := method;
       Httpx.url := Client.base_url self +:+ endpoint;
       Httpx.headers := Client._get_headers settings;
       Httpx.body := json;
       Httpx.timeout := Client.timeout_or timeout (Client.timeout self) |}).
Proof. reflexivity. Qed.

(** A handler sends what its client method sends, and wraps what it
    returns or raises. *)
Lemma sent_call_tool i :
  sent gateway (Server.call_tool repr g i) =
  sent gateway (Server.client_call g i).
Proof.
  destruct i; cbn [Server.call_tool Server.client_call];
    unfold Server.analyze_credit_report, Server.get_credit_health,
      Server.analyze_portfolio, Server.optimize_loans,
      Server.create_financial_plan;
    rewrite sent_bind; simpl; reflexivity.
Qed.

Lemma run_call_tool i :
  run gateway (Server.call_tool repr g i) =
  Server.envelope repr (run gateway (Server.client_call g i)).
Proof.
  destruct i; cbn [Server.call_tool Server.client_call];
    unfold Server.analyze_credit_report, Server.get_credit_health,
      Server.analyze_portfolio, Server.optimize_loans,
      Server.create_financial_plan;
    rewrite run_bind; reflexivity.
Qed.

(** Every client method makes exactly one request. *)
Lemma client_call_one_request i :
  exists req, sent gateway (Server.client_call g i) = [req]
              /\ run gateway (Server.client_call g i)
                 = Client.settle (gateway req).
Proof.
  destruct i; cbn [Server.client_call];
    unfold Client.analyze_credit_report, Client.get_credit_health,
      Client.analyze_portfolio, Client.optimize_loans,
      Client.create_financial_plan;
    rewrite sent_request, run_request; eexists; split; reflexivity.
Qed.
End Sent.

(** ** Configuration *)

Lemma is_local_dev_spec (s : Settings.t) :
  Settings.is_local_dev s = true <-> Settings.environment s = "development".
Proof. unfold Settings.is_local_dev. apply String.eqb_eq. Qed.

(** C9. The effective base URL: under the environment tag "development" it
    is the value of the variable FINPILOT_API_GATEWAY_URL when the process
    environment sets it and http://localhost:8000 otherwise; under any other
    tag it is the configured gateway URL. *)
Theorem effective_gateway_url_rule (environ : gmap string string)
  (s : Settings.t) :
  Settings.effective_gateway_url environ s =
  if decide (Settings.environment s = "development")
  then default "http://localhost:8000" (environ !! "FINPILOT_API_GATEWAY_URL")
  else Settings.api_gateway_url s.
Proof.
  unfold Settings.effective_gateway_url, Settings.getenv.
  destruct (Settings.is_local_dev s) eqn:Hdev.
  - apply is_local_dev_spec in Hdev.
    rewrite decide_True by assumption.
    now destruct (environ !! "FINPILOT_API_GATEWAY_URL").
  - rewrite decide_False; [reflexivity |].
    intros Heq. apply is_local_dev_spec in Heq. congruence.
Qed.

Example effective_url_development_override :
  Settings.effective_gateway_url
    {[ "FINPILOT_API_GATEWAY_URL" := "http://127.0.0.1:9000" ]}
    (Settings.set_environment "development" Settings.defaults)
  = "http://127.0.0.1:9000".
Proof. reflexivity. Qed.

Example effective_url_development_default :
  Settings.effective_gateway_url ∅
    (Settings.set_environment "development" Settings.defaults)
  = "http://localhost:8000".
Proof. reflexivity. Qed.

Example effective_url_staging :
  Settings.effective_gateway_url
    {[ "FINPILOT_API_GATEWAY_URL" := "http://127.0.0.1:9000" ]}
    (Settings.set_environment "staging" Settings.defaults)
  = "https://api.finpilot.ai".
Proof. reflexivity. Qed.

(** ** Headers *)

Lemma headers_content_type (s : Settings.t) :
  Client._get_headers s !! "Content-Type" = Some "application/json".
Proof.
  unfold Client._get_headers.
  destruct (str_truthy (Settings.jwt_token s));
    [| destruct (str_truthy (Settings.api_key s))]; reflexivity.
Qed.

Lemma headers_authorization (s : Settings.t) :
  Client._get_headers s !! "Authorization" =
  if str_truthy (Settings.jwt_token s)
  then Some ("Bearer " +:+ default "" (Settings.jwt_token s))
  else None.
Proof.
  unfold Client._get_headers.
  destruct (str_truthy (Settings.jwt_token s));
    [| destruct (str_truthy (Settings.api_key s))]; reflexivity.
Qed.

Lemma headers_api_key (s : Settings.t) :
  Client._get_headers s !! "X-API-Key" =
  if str_truthy (Settings.jwt_token s) then None
  else if str_truthy (Settings.api_key s) then Settings.api_key s
  else None.
Proof.
  unfold Client._get_headers.
  destruct (str_truthy (Settings.jwt_token s)); [reflexivity |].
  destruct (Settings.api_key s) as [k |]; simpl; [| reflexivity].
  destruct (negb (String.eqb k "")); reflexivity.
Qed.

(** C7. Every request carries Content-Type: application/json and at most
    one of the two authentication headers: the Authorization bearer header
    when a bearer token is configured (whatever the API key), the X-API-Key
    header when only an API key is configured, neither when none is.  A
    credential counts as configured when it is set to a non-empty string,
    which is what [str_truthy] tests. *)
Theorem auth_header_selection (repr : value -> string) (g : Server.globals)
  (gateway : Httpx.Request -> Httpx.outcome) (i : Server.invocation) :
  exists req,
    sent gateway (Server.call_tool repr g i) = [req] /\
    let h := Httpx.headers req in
    let token := Settings.jwt_token (Server.settings g) in
    let key := Settings.api_key (Server.settings g) in
    h !! "Content-Type" = Some "application/json" /\
    h !! "Authorization" =
      (if str_truthy token then Some ("Bearer " +:+ default "" token)
       else None) /\
    h !! "X-API-Key" =
      (if str_truthy token then None
       else if str_truthy key then key else None) /\
    ~ (is_Some (h !! "Authorization") /\ is_Some (h !! "X-API-Key")).
Proof.
  rewrite sent_call_tool.
  assert (Hh : forall req, In req (sent gateway (Server.client_call g i)) ->
                 Httpx.headers req = Client._get_headers (Server.settings g)).
  { intros req. destruct i; simpl; intros [<- | []]; reflexivity. }
  destruct (client_call_one_request g gateway i) as (req & Hsent & _).
  exists req. split; [exact Hsent |].
  rewrite (Hh req) by (rewrite Hsent; now left).
  cbv zeta.
  rewrite headers_content_type, headers_authorization, headers_api_key.
  repeat split.
  intros [Ha Hk].
  destruct (str_truthy (Settings.jwt_token (Server.settings g)));
    [destruct Hk as [? Hk] | destruct Ha as [? Ha]]; discriminate.
Qed.

Example headers_both_credentials :
  Client._get_headers
    {| Settings.api_gateway_url := "https://api.finpilot.ai";
       Settings.api_key := Some "k-123";
       Settings.jwt_token := Some "tok";
       Settings.environment := "production";
       Settings.request_timeout := Constants.DEFAULT_TIMEOUT;
       Settings.upload_timeout := Constants.UPLOAD_TIMEOUT |}
  = {[ "Content-Type" := "application/json";
       "User-Agent" := "finpilot-mcp/0.1.0";
       "Authorization" := "Bearer tok" ]}.
Proof. reflexivity. Qed.

Example headers_no_credentials :
  Client._get_headers Settings.defaults
  = {[ "Content-Type" := "application/json";
       "User-Agent" := "finpilot-mcp/0.1.0" ]}.
Proof. reflexivity. Qed.

(** ** Endpoints *)

(** The five keys the client uses are in the table. *)
Example endpoints_table :
  map Client.endpoint
    ["credit_analyze"; "credit_health"; "portfolio_analyze";
     "loan_optimize"; "financial_plan"]
  = ["/v1/credit/analyze"; "/v1/credit/health"; "/v1/portfolio/analyze";
     "/v1/loans/optimize"; "/v1/plan/create"]
  /\ Forall (fun key => is_Some (Constants.ENDPOINTS !! key))
       ["credit_analyze"; "credit_health"; "portfolio_analyze";
        "loan_optimize"; "financial_plan"].
Proof. split; [reflexivity | repeat constructor; eexists; reflexivity]. Qed.

Example plan_request :
  sent (always refused)
       (Server.call_tool plain_repr
          (Server.import ∅ (with_api_key "k-123"))
          (Server.CreateFinancialPlan
             [[("name", VStr "house")]] [("income", VInt 90000)] None))
  = [ {| Httpx.method := "POST";
         Httpx.url := "https://api.finpilot.ai/v1/plan/create";
         Httpx.headers := {[ "Content-Type" := "application/json";
                             "User-Agent" := "finpilot-mcp/0.1.0";
                             "X-API-Key" := "k-123" ]};
         Httpx.body :=
           Some [("goals", VList [VDict [("name", VStr "house")]]);
                 ("current_situation", VDict [("income", VInt 90000)]);
                 ("user_id", VNone)];
         Httpx.timeout := Constants.DEFAULT_TIMEOUT |} ].
Proof. reflexivity. Qed.

(** ** Request bodies *)

Lemma arguments_keys (i : Server.invocation) :
  map fst (Server.arguments i) = Server.parameters i.
Proof. destruct i; reflexivity. Qed.

Lemma arguments_have_every_parameter (i : Server.invocation) (name : string) :
  In name (Server.parameters i) -> dict_has name (Server.arguments i) = true.
Proof.
  destruct i; simpl; intros H;
    repeat (destruct H as [<- | H]; [reflexivity |]); destruct H.
Qed.

(** What each client method puts in the body. *)
Lemma client_call_body (g : Server.globals)
  (gateway : Httpx.Request -> Httpx.outcome) (i : Server.invocation) :
  map Httpx.body (sent gateway (Server.client_call g i)) =
  [ Some (if leaves_out_user_id i then [] else Server.arguments i) ].
Proof.
  destruct i as [| user_id | | |]; try reflexivity.
  simpl. destruct (str_truthy user_id); reflexivity.
Qed.

(** An absent optional argument is the object [None], sent as null. *)
Lemma absent_argument_is_null :
  of_opt_str None = VNone /\ of_opt_dict None = VNone
  /\ of_opt_dicts None = VNone.
Proof. repeat split. Qed.

Example credit_health_request_without_user_id :
  sent (always refused)
       (Server.call_tool plain_repr
          (Server.import ∅ (with_api_key "k-123"))
          (Server.GetCreditHealth None))
  = [ {| Httpx.method := "GET";
         Httpx.url := "https://api.finpilot.ai/v1/credit/health";
         Httpx.headers := {[ "Content-Type" := "application/json";
                             "User-Agent" := "finpilot-mcp/0.1.0";
                             "X-API-Key" := "k-123" ]};
         Httpx.body := Some [];
         Httpx.timeout := Constants.DEFAULT_TIMEOUT |} ].
Proof. reflexivity. Qed.

Example optimize_loans_request_without_arguments :
  map Httpx.body
    (sent (always refused)
       (Server.call_tool plain_repr
          (Server.import ∅ (with_api_key "k-123"))
          (Server.OptimizeLoans None None)))
  = [ Some [("loans", VNone); ("user_id", VNone)] ].
Proof. reflexivity. Qed.

(** C1, as stated, fails: [get_credit_health] called with no user id sends
    the empty object, which has no key [user_id]. *)
Lemma credit_health_body_lacks_user_id :
  ~ (forall (repr : value -> string) (g : Server.globals)
            (gateway : Httpx.Request -> Httpx.outcome)
            (i : Server.invocation),
        exists req, sent gateway (Server.call_tool repr g i) = [req]
                    /\ has_every_parameter req i).
Proof.
  intros H.
  destruct (H plain_repr (Server.import ∅ (with_api_key "k-123"))
              (always refused)
              (Server.GetCreditHealth None))
    as (req & Hsent & b & Hbody & Hkeys).
  rewrite credit_health_request_without_user_id in Hsent.
  injection Hsent as <-. simpl in Hbody. injection Hbody as <-.
  specialize (Hkeys "user_id" (or_introl eq_refl)). discriminate.
Qed.

(** C1, amended. Every call sends one request with a JSON body.  For
    analyze_credit_report, analyze_portfolio, optimize_loans and
    create_financial_plan, and for get_credit_health with a non-empty user
    id, the body is the dict of all the parameters of the operation, an
    absent optional parameter being an explicit null.  get_credit_health
    with no user id, or an empty one, sends the empty object. *)
Theorem body_carries_parameters (repr : value -> string) (g : Server.globals)
  (gateway : Httpx.Request -> Httpx.outcome) (i : Server.invocation) :
  exists req b,
    sent gateway (Server.call_tool repr g i) = [req]
    /\ Httpx.body req = Some b
    /\ if leaves_out_user_id i then b = []
       else b = Server.arguments i /\ has_every_parameter req i.
Proof.
  destruct (client_call_one_request g gateway i) as (req & Hsent & _).
  pose proof (client_call_body g gateway i) as Hbody.
  rewrite Hsent in Hbody. injection Hbody as Hbody.
  exists req, (if leaves_out_user_id i then [] else Server.arguments i).
  rewrite sent_call_tool. repeat split; try assumption.
  destruct (leaves_out_user_id i); [reflexivity |].
  split; [reflexivity |].
  exists (Server.arguments i). split; [assumption |].
  apply arguments_have_every_parameter.
Qed.

(** ** Timeouts *)

(** The timeout each client method asks for. *)
Lemma client_call_timeout (g : Server.globals)
  (gateway : Httpx.Request -> Httpx.outcome) (i : Server.invocation) :
  map Httpx.timeout (sent gateway (Server.client_call g i)) =
  [ Client.timeout_or
      (if Server.is_upload i
       then Some (Client.upload_timeout (Server.client g)) else None)
      (Client.timeout (Server.client g)) ].
Proof. destruct i; reflexivity. Qed.

(** X13. With a non-zero upload timeout the two upload operations use it,
    and the other three use the standard timeout. *)
Lemma timeout_selection (repr : value -> string) (g : Server.globals)
  (gateway : Httpx.Request -> Httpx.outcome) (i : Server.invocation) :
  float_truthy (Client.upload_timeout (Server.client g)) = true ->
  map Httpx.timeout (sent gateway (Server.call_tool repr g i)) =
  [ if Server.is_upload i then Client.upload_timeout (Server.client g)
    else Client.timeout (Server.client g) ].
Proof.
  intros Hup. rewrite sent_call_tool, client_call_timeout.
  destruct (Server.is_upload i); simpl; [now rewrite Hup | reflexivity].
Qed.

(** C8, evaluated where it fails: with the upload timeout configured as
    0.0 and the standard timeout as 30.0, analyze_credit_report and
    analyze_portfolio send their request with timeout 30.0, which is not
    the configured upload timeout. *)
Theorem upload_timeout_zero_not_used :
  let g := Server.import ∅ (with_zero_upload_timeout "k-123") in
  Client.upload_timeout (Server.client g) = S754_zero false
  /\ map Httpx.timeout
       (sent (always refused)
          (Server.call_tool plain_repr g
             (Server.AnalyzeCreditReport "JVBERi0xLjQK" None)))
     = [Constants.DEFAULT_TIMEOUT]
  /\ map Httpx.timeout
       (sent (always refused)
          (Server.call_tool plain_repr g
             (Server.AnalyzePortfolio (Some "JVBERi0xLjQK") None)))
     = [Constants.DEFAULT_TIMEOUT]
  /\ Constants.DEFAULT_TIMEOUT <> S754_zero false.
Proof. repeat split; discriminate. Qed.

(** C10. A call of the request primitive with a timeout equal to zero is
    sent with the standard timeout of the client; in particular, when the
    upload timeout is zero, the upload operations, which pass it
    explicitly, are sent with the standard timeout. *)
Theorem zero_timeout_falls_back (gateway : Httpx.Request -> Httpx.outcome)
  (sign : bool) :
  (forall settings self method endpoint json,
      map Httpx.timeout
        (sent gateway
           (Client._request settings self method endpoint json
              (Some (S754_zero sign))))
      = [Client.timeout self])
  /\ (forall repr g i,
        Client.upload_timeout (Server.client g) = S754_zero sign ->
        Server.is_upload i = true ->
        map Httpx.timeout (sent gateway (Server.call_tool repr g i))
        = [Client.timeout (Server.client g)]).
Proof.
  split.
  - intros. rewrite sent_request. reflexivity.
  - intros repr g i Hzero Hup.
    rewrite sent_call_tool, client_call_timeout, Hup, Hzero. reflexivity.
Qed.

Lemma zero_timeout_falls_back_witness :
  map Httpx.timeout
    (sent (always refused)
       (Server.call_tool plain_repr
          (Server.import ∅ (with_zero_upload_timeout "k-123"))
          (Server.AnalyzeCreditReport "JVBERi0xLjQK" None)))
  = [Constants.DEFAULT_TIMEOUT].
Proof.
  apply (proj2 (zero_timeout_falls_back (always refused) false)
           plain_repr
           (Server.import ∅ (with_zero_upload_timeout "k-123"))
           (Server.AnalyzeCreditReport "JVBERi0xLjQK" None));
    reflexivity.
Defined.

(** ** Command-line overrides *)

(** [main] assigns to the settings object only: the client built when the
    package was imported keeps the base URL it read then. *)
Lemma main_keeps_client (a : Server.args) (g g' : Server.globals) :
  Server.main a g = Server.Serving g' -> Server.client g' = Server.client g.
Proof.
  unfold Server.main.
  destruct (negb (Settings.has_auth _)); [discriminate |].
  intros [= <-]. reflexivity.
Qed.

Lemma client_call_url (g : Server.globals)
  (gateway : Httpx.Request -> Httpx.outcome) (i : Server.invocation) :
  exists path,
    map Httpx.url (sent gateway (Server.client_call g i)) =
    [ Client.base_url (Server.client g) +:+ path ].
Proof. destruct i; eexists; reflexivity. Qed.

(** C2, evaluated where it fails: the process starts with the default
    settings and an API key, and is given --api-gateway-url
    http://gateway.test:9000.  [main] then serves, the settings resolve to
    the overridden URL, and yet the request of get_credit_health goes to
    the URL resolved before the override. *)
Theorem cli_gateway_url_not_used :
  let g0 := Server.import ∅ (with_api_key "k-123") in
  let a := {| Server.api_gateway_url := Some "http://gateway.test:9000";
              Server.environment := None |} in
  exists g1,
    Server.main a g0 = Server.Serving g1
    /\ Server.banner_gateway ∅ g1 = "http://gateway.test:9000"
    /\ map Httpx.url
         (sent (always refused)
            (Server.call_tool plain_repr g1 (Server.GetCreditHealth None)))
       = ["https://api.finpilot.ai/v1/credit/health"].
Proof. eexists. repeat split. Qed.

(** The same with --environment development: the settings resolve to the
    local default, the request still goes to the production URL. *)
Example cli_environment_not_used :
  let g0 := Server.import ∅ (with_api_key "k-123") in
  let a := {| Server.api_gateway_url := None;
              Server.environment := Some "development" |} in
  exists g1,
    Server.main a g0 = Server.Serving g1
    /\ Server.banner_gateway ∅ g1 = "http://localhost:8000"
    /\ map Httpx.url
         (sent (always refused)
            (Server.call_tool plain_repr g1 (Server.GetCreditHealth None)))
       = ["https://api.finpilot.ai/v1/credit/health"].
Proof. eexists. repeat split. Qed.

(** ** Outcomes *)

Lemma ends_as_always {A : Type} (m : io A) (o : Httpx.outcome) :
  ends_as (always o) m o.
Proof. intros req _. reflexivity. Qed.

(** What a client method returns or raises once its request has ended. *)
Lemma client_call_settles (g : Server.globals)
  (gateway : Httpx.Request -> Httpx.outcome) (i : Server.invocation)
  (o : Httpx.outcome) :
  ends_as gateway (Server.client_call g i) o ->
  run gateway (Server.client_call g i) = Client.settle o.
Proof.
  intros Hends.
  destruct (client_call_one_request g gateway i) as (req & Hsent & ->).
  rewrite (Hends req); [reflexivity |]. rewrite Hsent. now left.
Qed.

Lemma call_tool_settles (repr : value -> string) (g : Server.globals)
  (gateway : Httpx.Request -> Httpx.outcome) (i : Server.invocation)
  (o : Httpx.outcome) :
  ends_as gateway (Server.call_tool repr g i) o ->
  run gateway (Server.call_tool repr g i)
  = Server.envelope repr (Client.settle o).
Proof.
  intros Hends. rewrite run_call_tool.
  rewrite (client_call_settles g gateway i o); [reflexivity |].
  intros req Hin. apply Hends. now rewrite sent_call_tool.
Qed.

(** C5. When the response has a status below 400 and a body that is valid
    JSON, the tool returns the success envelope around the decoded body,
    unchanged. *)
Theorem success_passes_payload_through (repr : value -> string)
  (g : Server.globals) (gateway : Httpx.Request -> Httpx.outcome)
  (i : Server.invocation) (response : Httpx.Response) (payload : value) :
  ends_as gateway (Server.call_tool repr g i) (Httpx.Responded response) ->
  (Httpx.status_code response < 400)%Z ->
  Httpx.json response = Httpx.Decoded payload ->
  run gateway (Server.call_tool repr g i)
  = [("status", VStr "success"); ("data", payload)].
Proof.
  intros Hends Hstatus Hjson.
  rewrite (call_tool_settles repr g gateway i _ Hends).
  unfold Client.settle.
  destruct (Z.leb_spec 400 (Httpx.status_code response)) as [Hge | _];
    [lia |].
  rewrite Hjson. reflexivity.
Qed.

Lemma success_passes_payload_through_witness :
  run (always (Httpx.Responded ok_with_scores))
    (Server.call_tool plain_repr (Server.import ∅ (with_api_key "k-123"))
       (Server.OptimizeLoans None (Some "u-1")))
  = [("status", VStr "success"); ("data", VList [VInt 750; VInt 12])].
Proof.
  apply (success_passes_payload_through plain_repr
           (Server.import ∅ (with_api_key "k-123"))
           (always (Httpx.Responded ok_with_scores))
           (Server.OptimizeLoans None (Some "u-1"))
           ok_with_scores (VList [VInt 750; VInt 12])).
  - apply ends_as_always.
  - simpl. lia.
  - reflexivity.
Defined.

(** ** Remote rejections *)

Lemma new_error_with_dict (status_code : Z) (message : value) (d : dict) :
  Client.new_FinPilotAPIError status_code message (Some d)
  = Client.FinPilotAPIError status_code message d.
Proof. destruct d; reflexivity. Qed.

(** X9. Status >= 400 with a body that decodes to a JSON object: a typed
    error with that status, the object's "message" (the fallback text when
    it has none) and the object as details. *)
Lemma rejection_with_object_body (g : Server.globals)
  (gateway : Httpx.Request -> Httpx.outcome) (i : Server.invocation)
  (response : Httpx.Response) (d : dict) :
  ends_as gateway (Server.client_call g i) (Httpx.Responded response) ->
  (400 <= Httpx.status_code response)%Z ->
  Httpx.content response <> "" ->
  Httpx.json response = Httpx.Decoded (VDict d) ->
  run gateway (Server.client_call g i)
  = Err (Client.FinPilotAPIError (Httpx.status_code response)
           (dict_get "message" (VStr "API request failed") d) d).
Proof.
  intros Hends Hstatus Hcontent Hjson.
  rewrite (client_call_settles g gateway i _ Hends). unfold Client.settle.
  destruct (Z.leb_spec 400 (Httpx.status_code response)); [| lia].
  destruct (String.eqb_spec (Httpx.content response) ""); [contradiction |].
  simpl. rewrite Hjson, new_error_with_dict. reflexivity.
Qed.

(** Status >= 400 with an empty body: the fallback text, empty details. *)
Lemma rejection_with_empty_body (g : Server.globals)
  (gateway : Httpx.Request -> Httpx.outcome) (i : Server.invocation)
  (response : Httpx.Response) :
  ends_as gateway (Server.client_call g i) (Httpx.Responded response) ->
  (400 <= Httpx.status_code response)%Z ->
  Httpx.content response = "" ->
  run gateway (Server.client_call g i)
  = Err (Client.FinPilotAPIError (Httpx.status_code response)
           (VStr "API request failed") []).
Proof.
  intros Hends Hstatus Hcontent.
  rewrite (client_call_settles g gateway i _ Hends). unfold Client.settle.
  destruct (Z.leb_spec 400 (Httpx.status_code response)); [| lia].
  rewrite Hcontent. reflexivity.
Qed.

(** Status 404 with the body [{"message": "not found"}], for every tool. *)
Lemma not_found_envelope (repr : value -> string) (g : Server.globals)
  (i : Server.invocation) :
  run (always (Httpx.Responded not_found)) (Server.call_tool repr g i)
  = [("status", VStr "error"); ("error", VStr "API Error 404: not found")].
Proof.
  rewrite (call_tool_settles repr g _ i _ (ends_as_always _ _)).
  reflexivity.
Qed.

(** C3, evaluated where it fails: on a response with status 502 whose body
    is an HTML page, every client method raises the decoding error of
    [response.json()], not a typed API error with the fallback message, and
    the tool envelope carries the decoder's text. *)
Theorem rejection_with_undecodable_body (repr : value -> string)
  (g : Server.globals) (i : Server.invocation) :
  run (always (Httpx.Responded bad_gateway_page)) (Server.client_call g i)
  = Err (Client.JSONDecodeError "Expecting value: line 1 column 1 (char 0)")
  /\ run (always (Httpx.Responded bad_gateway_page))
       (Server.call_tool repr g i)
     = [("status", VStr "error");
        ("error", VStr "Expecting value: line 1 column 1 (char 0)")].
Proof.
  split.
  - rewrite (client_call_settles g _ i _ (ends_as_always _ _)). reflexivity.
  - rewrite (call_tool_settles repr g _ i _ (ends_as_always _ _)).
    reflexivity.
Qed.

(** A JSON body that is not an object has no [get] either. *)
Example rejection_with_list_body :
  Client.settle (Httpx.Responded
    {| Httpx.status_code := 500;
       Httpx.content := "[1]";
       Httpx.json := Httpx.Decoded (VList [VInt 1]) |})
  = Err (Client.AttributeError "'list' object has no attribute 'get'").
Proof. reflexivity. Qed.

(** ** Transport failures *)

(** Every timeout class of httpx is also a [RequestError], so the order of
    the two [except] clauses decides how a timeout is reported. *)
Lemma timeout_is_request_error (c : Httpx.exc_class) :
  Httpx.issubclass c Httpx.TimeoutException = true ->
  Httpx.issubclass c Httpx.RequestError = true.
Proof. destruct c; vm_compute; congruence. Qed.

Example connect_error_is_request_error :
  Httpx.issubclass Httpx.ConnectError Httpx.RequestError = true
  /\ Httpx.issubclass Httpx.ConnectError Httpx.TimeoutException = false.
Proof. split; reflexivity. Qed.

(** C4. When the request ends with a transport-level failure, every client
    method raises a typed API error whose details hold the description of
    the failure: status 504 and "Request timeout" when the failure is a
    timeout, status 503 and "Failed to connect to API" when it is any other
    transport failure.  A timeout is never reported as 503. *)
Theorem transport_failures_classified (g : Server.globals)
  (gateway : Httpx.Request -> Httpx.outcome) (i : Server.invocation)
  (e : Httpx.exception) :
  ends_as gateway (Server.client_call g i) (Httpx.Raised e) ->
  Httpx.isinstance e Httpx.RequestError = true ->
  run gateway (Server.client_call g i)
  = Err (if Httpx.isinstance e Httpx.TimeoutException
         then Client.FinPilotAPIError 504 (VStr "Request timeout")
                [("error", VStr (Httpx.description e))]
         else Client.FinPilotAPIError 503 (VStr "Failed to connect to API")
                [("error", VStr (Httpx.description e))]).
Proof.
  intros Hends Hreq.
  rewrite (client_call_settles g gateway i _ Hends). unfold Client.settle.
  destruct (Httpx.isinstance e Httpx.TimeoutException); [reflexivity |].
  rewrite Hreq. reflexivity.
Qed.

Lemma transport_failures_classified_witness :
  run (always (Httpx.Raised timed_out))
    (Server.client_call (Server.import ∅ (with_api_key "k-123"))
       (Server.AnalyzePortfolio None None))
  = Err (Client.FinPilotAPIError 504 (VStr "Request timeout")
           [("error", VStr "The read operation timed out")]).
Proof.
  apply (transport_failures_classified
           (Server.import ∅ (with_api_key "k-123"))
           (always (Httpx.Raised timed_out))
           (Server.AnalyzePortfolio None None) timed_out).
  - apply ends_as_always.
  - reflexivity.
Defined.

Example connection_refused_is_503 :
  run (always refused)
    (Server.call_tool plain_repr (Server.import ∅ (with_api_key "k-123"))
       (Server.GetCreditHealth (Some "u-1")))
  = [("status", VStr "error");
     ("error", VStr "API Error 503: Failed to connect to API")].
Proof. reflexivity. Qed.

(** ** The handler boundary *)

(** C6. Whatever the client method raises, a typed API error or any other
    exception, the handler returns the error envelope with the text of the
    exception; this includes a response with a success status whose body
    is not valid JSON.  A handler returns a dict in every case. *)
Theorem handler_returns_error_envelope (repr : value -> string)
  (g : Server.globals) (gateway : Httpx.Request -> Httpx.outcome)
  (i : Server.invocation) :
  (forall e,
      run gateway (Server.client_call g i) = Err e ->
      run gateway (Server.call_tool repr g i)
      = [("status", VStr "error"); ("error", VStr (Client.str repr e))])
  /\ (forall response msg,
        ends_as gateway (Server.call_tool repr g i)
          (Httpx.Responded response) ->
        (Httpx.status_code response < 400)%Z ->
        Httpx.json response = Httpx.Undecodable msg ->
        run gateway (Server.call_tool repr g i)
        = [("status", VStr "error"); ("error", VStr msg)])
  /\ ((exists payload, run gateway (Server.call_tool repr g i)
                       = [("status", VStr "success"); ("data", payload)])
      \/ (exists message, run gateway (Server.call_tool repr g i)
                          = [("status", VStr "error");
                             ("error", VStr message)])).
Proof.
  repeat split.
  - intros e He. rewrite run_call_tool, He. reflexivity.
  - intros response msg Hends Hstatus Hjson.
    rewrite (call_tool_settles repr g gateway i _ Hends).
    unfold Client.settle.
    destruct (Z.leb_spec 400 (Httpx.status_code response)); [lia |].
    rewrite Hjson. reflexivity.
  - rewrite run_call_tool.
    destruct (run gateway (Server.client_call g i)) as [payload | e].
    + left. exists payload. reflexivity.
    + right. exists (Client.str repr e). reflexivity.
Qed.

Lemma handler_returns_error_envelope_witness :
  run (always (Httpx.Responded ok_but_not_json))
    (Server.call_tool plain_repr (Server.import ∅ (with_api_key "k-123"))
       (Server.CreateFinancialPlan [] [] None))
  = [("status", VStr "error");
     ("error", VStr "Expecting value: line 1 column 1 (char 0)")].
Proof.
  apply (proj1 (proj2 (handler_returns_error_envelope plain_repr
                         (Server.import ∅ (with_api_key "k-123"))
                         (always (Httpx.Responded ok_but_not_json))
                         (Server.CreateFinancialPlan [] [] None)))
           ok_but_not_json "Expecting value: line 1 column 1 (char 0)").
  - apply ends_as_always.
  - simpl. lia.
  - reflexivity.
Defined.

(** * Further properties *)

(** ** Startup *)

(** The settings object [main] checks and serves with: the overrides
    change the gateway URL and the environment tag and nothing else. *)
Lemma main_settings (a : Server.args) (g : Server.globals) :
  exists s,
    Server.main a g =
      (if negb (Settings.has_auth s) then Server.Exit 1
       else Server.Serving {| Server.settings := s;
                              Server.client := Server.client g |})
    /\ Settings.api_key s = Settings.api_key (Server.settings g)
    /\ Settings.jwt_token s = Settings.jwt_token (Server.settings g)
    /\ Settings.request_timeout s
       = Settings.request_timeout (Server.settings g)
    /\ Settings.upload_timeout s
       = Settings.upload_timeout (Server.settings g)
    /\ Settings.environment s
       = (if str_truthy (Server.environment a)
          then default "" (Server.environment a)
          else Settings.environment (Server.settings g)).
Proof.
  unfold Server.main.
  destruct (str_truthy (Server.api_gateway_url a)),
           (str_truthy (Server.environment a));
    eexists; repeat split.
Qed.

Lemma has_auth_spec (s : Settings.t) :
  Settings.has_auth s = false
  <-> Settings.api_key s = None /\ Settings.jwt_token s = None.
Proof.
  unfold Settings.has_auth.
  destruct (Settings.api_key s), (Settings.jwt_token s);
    split; try intros [? ?]; try discriminate; auto.
Qed.


(** X2. When [main] goes on to serve, the credentials, both timeouts and
    the client object are what they were before the command line was
    applied. *)
Theorem main_changes_only_url_and_environment (a : Server.args)
  (g g' : Server.globals) :
  Server.main a g = Server.Serving g' ->
  Settings.api_key (Server.settings g')
  = Settings.api_key (Server.settings g)
  /\ Settings.jwt_token (Server.settings g')
     = Settings.jwt_token (Server.settings g)
  /\ Settings.request_timeout (Server.settings g')
     = Settings.request_timeout (Server.settings g)
  /\ Settings.upload_timeout (Server.settings g')
     = Settings.upload_timeout (Server.settings g)
  /\ Server.client g' = Server.client g.
Proof.
  destruct (main_settings a g) as (s & Hmain & Hkey & Htok & Hreq & Hup & _).
  rewrite Hmain. destruct (negb (Settings.has_auth s)); [discriminate |].
  intros [= <-]. simpl. repeat split; assumption.
Qed.

Lemma main_changes_only_url_and_environment_witness :
  let g := Server.import ∅ (with_api_key "k-123") in
  let g' := {| Server.settings :=
                 Settings.set_environment "staging"
                   (Settings.set_api_gateway_url "http://gateway.test:9000"
                      (with_api_key "k-123"));
               Server.client := Server.client g |} in
  Settings.api_key (Server.settings g') = Some "k-123"
  /\ Settings.jwt_token (Server.settings g') = None
  /\ Settings.request_timeout (Server.settings g') = Constants.DEFAULT_TIMEOUT
  /\ Settings.upload_timeout (Server.settings g') = Constants.UPLOAD_TIMEOUT
  /\ Server.client g' = Server.client g.
Proof.
  apply (main_changes_only_url_and_environment
           {| Server.api_gateway_url := Some "http://gateway.test:9000";
              Server.environment := Some "staging" |}
           (Server.import ∅ (with_api_key "k-123"))).
  reflexivity.
Defined.

(** X3. The guard of the two resources agrees with the startup check: in
    a state [main] refuses to serve both resources answer with the
    no-authentication text, and in every state [main] serves they answer
    with their placeholder, never with that text. *)
Theorem resources_agree_with_startup_check (a : Server.args)
  (g : Server.globals) :
  (Server.main a g = Server.Exit 1 ->
   Server.get_user_profile g = Server.no_auth_text
   /\ Server.get_user_portfolio g = Server.no_auth_text)
  /\ (forall g', Server.main a g = Server.Serving g' ->
        Server.get_user_profile g'
        = "User profile resource - to be implemented"
        /\ Server.get_user_portfolio g'
           = "User portfolio resource - to be implemented").
Proof.
  split.
  - intros Hexit.
    destruct (main_settings a g) as (s & Hmain & Hkey & Htok & _).
    rewrite Hmain in Hexit.
    destruct (Settings.has_auth s) eqn:Hauth; [discriminate |].
    apply has_auth_spec in Hauth. rewrite Hkey, Htok in Hauth.
    apply has_auth_spec in Hauth.
    unfold Server.get_user_profile, Server.get_user_portfolio.
    rewrite Hauth. split; reflexivity.
  - intros g' Hserve.
    destruct (main_settings a g) as (s & Hmain & _).
    rewrite Hmain in Hserve.
    destruct (Settings.has_auth s) eqn:Hauth; [| discriminate].
    injection Hserve as <-.
    unfold Server.get_user_profile, Server.get_user_portfolio. simpl.
    rewrite Hauth. split; reflexivity.
Qed.

Lemma resources_agree_with_startup_check_witness :
  Server.get_user_profile
    {| Server.settings :=
         Settings.set_environment "staging" (with_api_key "k-123");
       Server.client := Server.client
                          (Server.import ∅ (with_api_key "k-123")) |}
  = "User profile resource - to be implemented"
  /\ Server.get_user_portfolio
       {| Server.settings :=
            Settings.set_environment "staging" (with_api_key "k-123");
          Server.client := Server.client
                             (Server.import ∅ (with_api_key "k-123")) |}
     = "User portfolio resource - to be implemented".
Proof.
  apply (proj2 (resources_agree_with_startup_check
                  {| Server.api_gateway_url := None;
                     Server.environment := Some "staging" |}
                  (Server.import ∅ (with_api_key "k-123")))).
  reflexivity.
Defined.

(** X4. Started with --environment development, the gateway the banner
    announces is the value of FINPILOT_API_GATEWAY_URL, or
    http://localhost:8000 when that variable is unset: neither the
    --api-gateway-url argument nor the configured URL has any effect. *)
Theorem development_ignores_url_argument (environ : gmap string string)
  (url : option string) (g g' : Server.globals) :
  Server.main {| Server.api_gateway_url := url;
                 Server.environment := Some "development" |} g
  = Server.Serving g' ->
  Server.banner_gateway environ g'
  = default "http://localhost:8000" (environ !! "FINPILOT_API_GATEWAY_URL").
Proof.
  intros Hserve.
  destruct (main_settings
              {| Server.api_gateway_url := url;
                 Server.environment := Some "development" |} g)
    as (s & Hmain & _ & _ & _ & _ & Henv).
  rewrite Hmain in Hserve.
  destruct (negb (Settings.has_auth s)); [discriminate |].
  injection Hserve as <-.
  unfold Server.banner_gateway, Settings.effective_gateway_url,
    Settings.getenv.
  simpl in *.
  rewrite (proj2 (is_local_dev_spec s) Henv).
  now destruct (environ !! "FINPILOT_API_GATEWAY_URL").
Qed.

Lemma development_ignores_url_argument_witness :
  Server.banner_gateway ∅
    {| Server.settings :=
         Settings.set_environment "development"
           (Settings.set_api_gateway_url "http://10.0.0.5:8000"
              (with_api_key "k-123"));
       Server.client := Server.client
                          (Server.import ∅ (with_api_key "k-123")) |}
  = "http://localhost:8000".
Proof.
  exact (development_ignores_url_argument ∅ (Some "http://10.0.0.5:8000")
           (Server.import ∅ (with_api_key "k-123"))
           {| Server.settings :=
                Settings.set_environment "development"
                  (Settings.set_api_gateway_url "http://10.0.0.5:8000"
                     (with_api_key "k-123"));
              Server.client := Server.client
                                 (Server.import ∅ (with_api_key "k-123")) |}
           eq_refl).
Defined.

(** ** Credentials and headers *)

Lemma str_truthy_false (o : option string) :
  str_truthy o = false <-> blank o.
Proof.
  unfold blank. destruct o as [s |]; simpl.
  - destruct (String.eqb_spec s ""); simpl; split.
    + intros _. right. now subst.
    + reflexivity.
    + discriminate.
    + intros [[=] | [=]]. contradiction.
  - split; auto.
Qed.

(** X5. A request carries an authentication header only if [has_auth]
    holds, and it carries none exactly when each credential is absent or
    the empty string.  So a credential set to the empty string satisfies
    the startup check and is never sent. *)
Theorem auth_header_needs_nonempty_credential (s : Settings.t) :
  let h := Client._get_headers s in
  ((is_Some (h !! "Authorization") \/ is_Some (h !! "X-API-Key")) ->
   Settings.has_auth s = true)
  /\ ((h !! "Authorization" = None /\ h !! "X-API-Key" = None)
      <-> (blank (Settings.jwt_token s) /\ blank (Settings.api_key s))).
Proof.
  cbv zeta. rewrite headers_authorization, headers_api_key.
  rewrite <- !str_truthy_false.
  unfold Settings.has_auth.
  destruct (Settings.jwt_token s) as [t |] eqn:Ht;
    destruct (Settings.api_key s) as [k |] eqn:Hk; simpl;
    repeat match goal with
           | |- context [String.eqb ?x ""] => destruct (String.eqb x "")
           end; simpl;
    (split; [ intros [[? [=]] | [? [=]]]; reflexivity
            | split; intros [? ?]; try discriminate; auto ]).
Qed.

Example empty_api_key_is_served_unauthenticated :
  exists g,
    Server.main {| Server.api_gateway_url := None;
                   Server.environment := None |}
      (Server.import ∅ with_empty_api_key) = Server.Serving g
    /\ map Httpx.headers
         (sent (always refused)
            (Server.call_tool plain_repr g (Server.GetCreditHealth None)))
       = [ {[ "Content-Type" := "application/json";
              "User-Agent" := "finpilot-mcp/0.1.0" ]} ].
Proof. eexists. split; reflexivity. Qed.

(** ** Routing *)

Lemma append_cancel_l (p a b : string) : p +:+ a = p +:+ b -> a = b.
Proof.
  induction p as [| c p IH]; simpl; intros H; [exact H |].
  injection H as H. exact (IH H).
Qed.

Lemma client_call_path (g : Server.globals)
  (gateway : Httpx.Request -> Httpx.outcome) (i : Server.invocation) :
  map Httpx.url (sent gateway (Server.client_call g i))
  = [ Client.base_url (Server.client g) +:+ path_of i ].
Proof. destruct i; reflexivity. Qed.

Lemma same_tool_path (i j : Server.invocation) :
  path_of i = path_of j <-> same_tool i j = true.
Proof. destruct i, j; simpl; split; congruence. Qed.

(** X6. Whatever the base URL, two calls go to the same URL exactly when
    they are calls of the same tool: the five operations are served under
    five different paths, and the arguments never reach the URL. *)
Theorem url_identifies_tool (g : Server.globals)
  (gateway gateway' : Httpx.Request -> Httpx.outcome)
  (i j : Server.invocation) :
  map Httpx.url (sent gateway (Server.client_call g i))
  = map Httpx.url (sent gateway' (Server.client_call g j))
  <-> same_tool i j = true.
Proof.
  rewrite !client_call_path, <- same_tool_path. split.
  - intros [= H]. exact (append_cancel_l _ _ _ H).
  - intros ->. reflexivity.
Qed.

Lemma client_call_method (g : Server.globals)
  (gateway : Httpx.Request -> Httpx.outcome) (i : Server.invocation) :
  map Httpx.method (sent gateway (Server.client_call g i))
  = [ if same_tool i (Server.GetCreditHealth None) then "GET" else "POST" ].
Proof. destruct i; reflexivity. Qed.

(** X7. Every tool call sends exactly one request, whatever the gateway
    answers: there is no retry.  The request is a GET for get_credit_health
    and a POST for the other four, and it always carries a JSON body, the
    GET included. *)
Theorem one_request_with_body (repr : value -> string) (g : Server.globals)
  (gateway : Httpx.Request -> Httpx.outcome) (i : Server.invocation) :
  exists req,
    sent gateway (Server.call_tool repr g i) = [req]
    /\ Httpx.method req
       = (if same_tool i (Server.GetCreditHealth None) then "GET" else "POST")
    /\ is_Some (Httpx.body req).
Proof.
  destruct (client_call_one_request g gateway i) as (req & Hsent & _).
  exists req. rewrite sent_call_tool. split; [exact Hsent |].
  pose proof (client_call_method g gateway i) as Hm.
  pose proof (client_call_body g gateway i) as Hb.
  rewrite Hsent in Hm, Hb. simpl in Hm, Hb.
  injection Hm as Hm. injection Hb as Hb.
  split; [exact Hm | rewrite Hb; eauto].
Qed.

(** X8. Once the client object exists, the settings object reaches a
    request through its headers only: for one client object and two
    settings objects, a call sends requests with the same method, URL,
    body and timeout, and each carries the headers of its own settings. *)
Theorem settings_reach_only_headers (repr : value -> string)
  (gateway : Httpx.Request -> Httpx.outcome) (s1 s2 : Settings.t)
  (c : Client.t) (i : Server.invocation) :
  let r1 := sent gateway
              (Server.call_tool repr
                 {| Server.settings := s1; Server.client := c |} i) in
  let r2 := sent gateway
              (Server.call_tool repr
                 {| Server.settings := s2; Server.client := c |} i) in
  map Httpx.method r1 = map Httpx.method r2
  /\ map Httpx.url r1 = map Httpx.url r2
  /\ map Httpx.body r1 = map Httpx.body r2
  /\ map Httpx.timeout r1 = map Httpx.timeout r2
  /\ map Httpx.headers r1 = [Client._get_headers s1]
  /\ map Httpx.headers r2 = [Client._get_headers s2].
Proof.
  cbv zeta. rewrite !sent_call_tool.
  rewrite !client_call_method, !client_call_path, !client_call_body,
    !client_call_timeout.
  repeat split; destruct i; reflexivity.
Qed.

(** ** More on remote rejections *)

Lemma rejection_with_object_body_witness :
  run (always (Httpx.Responded not_found))
    (Server.client_call (Server.import ∅ (with_api_key "k-123"))
       (Server.AnalyzeCreditReport "JVBERi0xLjQK" (Some "cibil")))
  = Err (Client.FinPilotAPIError 404 (VStr "not found")
           [("message", VStr "not found")]).
Proof.
  apply (rejection_with_object_body
           (Server.import ∅ (with_api_key "k-123"))
           (always (Httpx.Responded not_found))
           (Server.AnalyzeCreditReport "JVBERi0xLjQK" (Some "cibil"))
           not_found [("message", VStr "not found")]).
  - apply ends_as_always.
  - simpl. lia.
  - discriminate.
  - reflexivity.
Defined.

Lemma dict_get_missing (key : string) (default : value) (d : dict) :
  dict_has key d = false -> dict_get key default d = default.
Proof.
  induction d as [| [k v] rest IH]; simpl; [reflexivity |].
  destruct (String.eqb k key); simpl; [discriminate | exact IH].
Qed.

(** X10. A response with status >= 400 whose body is empty, or is a JSON
    object without a "message" key, gives for every tool the error envelope
    "API Error <status>: API request failed". *)
Theorem rejection_without_message (repr : value -> string)
  (g : Server.globals) (gateway : Httpx.Request -> Httpx.outcome)
  (i : Server.invocation) (response : Httpx.Response) :
  ends_as gateway (Server.call_tool repr g i) (Httpx.Responded response) ->
  (400 <= Httpx.status_code response)%Z ->
  (Httpx.content response = ""
   \/ exists d, Httpx.json response = Httpx.Decoded (VDict d)
                /\ dict_has "message" d = false) ->
  run gateway (Server.call_tool repr g i)
  = [("status", VStr "error");
     ("error", VStr ("API Error " +:+ pretty (Httpx.status_code response)
                     +:+ ": API request failed"))].
Proof.
  intros Hends Hstatus Hbody.
  rewrite (call_tool_settles repr g gateway i _ Hends). unfold Client.settle.
  destruct (Z.leb_spec 400 (Httpx.status_code response)); [| lia].
  destruct (String.eqb_spec (Httpx.content response) "") as [_ | Hne];
    simpl; [reflexivity |].
  destruct Hbody as [Hempty | (d & Hjson & Hmissing)]; [contradiction |].
  rewrite Hjson, new_error_with_dict, (dict_get_missing _ _ _ Hmissing).
  reflexivity.
Qed.

Lemma rejection_without_message_witness :
  run (always (Httpx.Responded unprocessable))
    (Server.call_tool plain_repr (Server.import ∅ (with_api_key "k-123"))
       (Server.AnalyzeCreditReport "JVBERi0xLjQK" (Some "cibil")))
  = [("status", VStr "error");
     ("error", VStr "API Error 422: API request failed")].
Proof.
  apply (rejection_without_message plain_repr
           (Server.import ∅ (with_api_key "k-123"))
           (always (Httpx.Responded unprocessable))
           (Server.AnalyzeCreditReport "JVBERi0xLjQK" (Some "cibil"))
           unprocessable).
  - apply ends_as_always.
  - simpl. lia.
  - right. exists [("detail", VStr "bureau")]. split; reflexivity.
Defined.

Example server_error_without_body :
  run (always (Httpx.Responded server_error_no_body))
    (Server.call_tool plain_repr (Server.import ∅ (with_api_key "k-123"))
       (Server.GetCreditHealth None))
  = [("status", VStr "error");
     ("error", VStr "API Error 500: API request failed")].
Proof. reflexivity. Qed.

(** X11. A response with status >= 400 whose non-empty body is JSON but
    not an object (a list, a string, a number, null) does not give a typed
    API error: the client raises the AttributeError of the missing [get],
    and the tool envelope carries its text. *)
Theorem rejection_with_non_object_body (repr : value -> string)
  (g : Server.globals) (gateway : Httpx.Request -> Httpx.outcome)
  (i : Server.invocation) (response : Httpx.Response) (v : value) :
  ends_as gateway (Server.call_tool repr g i) (Httpx.Responded response) ->
  (400 <= Httpx.status_code response)%Z ->
  Httpx.content response <> "" ->
  Httpx.json response = Httpx.Decoded v ->
  type_name v <> "dict" ->
  run gateway (Server.client_call g i)
  = Err (Client.AttributeError
           ("'" +:+ type_name v +:+ "' object has no attribute 'get'"))
  /\ run gateway (Server.call_tool repr g i)
     = [("status", VStr "error");
        ("error", VStr ("'" +:+ type_name v
                        +:+ "' object has no attribute 'get'"))].
Proof.
  intros Hends Hstatus Hcontent Hjson Hkind.
  assert (Hsettle : Client.settle (Httpx.Responded response)
                    = Err (Client.AttributeError (Client.no_get v))).
  { unfold Client.settle.
    destruct (Z.leb_spec 400 (Httpx.status_code response)); [| lia].
    destruct (String.eqb_spec (Httpx.content response) "");
      [contradiction |].
    simpl. rewrite Hjson. destruct v; try reflexivity.
    now contradiction Hkind. }
  split.
  - rewrite (client_call_settles g gateway i (Httpx.Responded response)).
    + exact Hsettle.
    + intros req Hin. apply Hends. now rewrite sent_call_tool.
  - rewrite (call_tool_settles repr g gateway i _ Hends), Hsettle.
    reflexivity.
Qed.

Lemma rejection_with_non_object_body_witness :
  run (always (Httpx.Responded server_error_list))
    (Server.client_call (Server.import ∅ (with_api_key "k-123"))
       (Server.OptimizeLoans None None))
  = Err (Client.AttributeError "'list' object has no attribute 'get'")
  /\ run (always (Httpx.Responded server_error_list))
       (Server.call_tool plain_repr (Server.import ∅ (with_api_key "k-123"))
          (Server.OptimizeLoans None None))
     = [("status", VStr "error");
        ("error", VStr "'list' object has no attribute 'get'")].
Proof.
  apply (rejection_with_non_object_body plain_repr
           (Server.import ∅ (with_api_key "k-123"))
           (always (Httpx.Responded server_error_list))
           (Server.OptimizeLoans None None)
           server_error_list (VList [VInt 1])).
  - apply ends_as_always.
  - simpl. lia.
  - discriminate.
  - reflexivity.
  - discriminate.
Defined.

(** ** More on failures of the request itself *)

Lemma not_request_error_not_timeout (e : Httpx.exception) :
  Httpx.isinstance e Httpx.RequestError = false ->
  Httpx.isinstance e Httpx.TimeoutException = false.
Proof.
  unfold Httpx.isinstance. intros Hreq.
  destruct (Httpx.issubclass (Httpx.cls e) Httpx.TimeoutException) eqn:Ht;
    [| reflexivity].
  apply timeout_is_request_error in Ht. congruence.
Qed.

(** X12. An httpx exception that is not a [RequestError], such as
    [InvalidURL] for a base URL that cannot be parsed, passes both
    [except] clauses of [_request]: the client raises it as it is, with no
    status code, and the tool envelope carries its text. *)
Theorem other_httpx_errors_pass_through (repr : value -> string)
  (g : Server.globals) (gateway : Httpx.Request -> Httpx.outcome)
  (i : Server.invocation) (e : Httpx.exception) :
  ends_as gateway (Server.call_tool repr g i) (Httpx.Raised e) ->
  Httpx.isinstance e Httpx.RequestError = false ->
  run gateway (Server.client_call g i) = Err (Client.HttpxError e)
  /\ run gateway (Server.call_tool repr g i)
     = [("status", VStr "error"); ("error", VStr (Httpx.description e))].
Proof.
  intros Hends Hreq.
  assert (Hsettle : Client.settle (Httpx.Raised e)
                    = Err (Client.HttpxError e)).
  { unfold Client.settle.
    now rewrite (not_request_error_not_timeout e Hreq), Hreq. }
  split.
  - rewrite (client_call_settles g gateway i (Httpx.Raised e)).
    + exact Hsettle.
    + intros req Hin. apply Hends. now rewrite sent_call_tool.
  - rewrite (call_tool_settles repr g gateway i _ Hends), Hsettle.
    reflexivity.
Qed.

Lemma other_httpx_errors_pass_through_witness :
  run (always (Httpx.Raised invalid_url))
    (Server.client_call (Server.import ∅ (with_api_key "k-123"))
       (Server.GetCreditHealth None))
  = Err (Client.HttpxError invalid_url)
  /\ run (always (Httpx.Raised invalid_url))
       (Server.call_tool plain_repr (Server.import ∅ (with_api_key "k-123"))
          (Server.GetCreditHealth None))
     = [("status", VStr "error"); ("error", VStr "Invalid port")].
Proof.
  apply (other_httpx_errors_pass_through plain_repr
           (Server.import ∅ (with_api_key "k-123"))
           (always (Httpx.Raised invalid_url))
           (Server.GetCreditHealth None) invalid_url).
  - apply ends_as_always.
  - reflexivity.
Defined.

(** ** More on timeouts *)

Lemma timeout_selection_witness :
  map Httpx.timeout
    (sent (always refused)
       (Server.call_tool plain_repr (Server.import ∅ (with_api_key "k-123"))
          (Server.AnalyzePortfolio (Some "JVBERi0xLjQK") None)))
  = [Constants.UPLOAD_TIMEOUT]
  /\ map Httpx.timeout
       (sent (always refused)
          (Server.call_tool plain_repr
             (Server.import ∅ (with_api_key "k-123"))
             (Server.OptimizeLoans None None)))
     = [Constants.DEFAULT_TIMEOUT].
Proof.
  split.
  - apply (timeout_selection plain_repr
             (Server.import ∅ (with_api_key "k-123")) (always refused)
             (Server.AnalyzePortfolio (Some "JVBERi0xLjQK") None)).
    reflexivity.
  - apply (timeout_selection plain_repr
             (Server.import ∅ (with_api_key "k-123")) (always refused)
             (Server.OptimizeLoans None None)).
    reflexivity.
Defined.

(** ** The text of a rejection *)

(** X14. For a response with status >= 400 whose body is a JSON object,
    when the message the client extracts (the object's "message", or the
    fallback) is the string [m], every tool returns the error envelope
    "API Error <status>: m", the status in decimal. *)
Theorem rejection_envelope_text (repr : value -> string)
  (g : Server.globals) (gateway : Httpx.Request -> Httpx.outcome)
  (i : Server.invocation) (response : Httpx.Response) (d : dict)
  (m : string) :
  ends_as gateway (Server.call_tool repr g i) (Httpx.Responded response) ->
  (400 <= Httpx.status_code response)%Z ->
  Httpx.content response <> "" ->
  Httpx.json response = Httpx.Decoded (VDict d) ->
  dict_get "message" (VStr "API request failed") d = VStr m ->
  run gateway (Server.call_tool repr g i)
  = [("status", VStr "error");
     ("error", VStr ("API Error " +:+ pretty (Httpx.status_code response)
                     +:+ ": " +:+ m))].
Proof.
  intros Hends Hstatus Hcontent Hjson Hmsg.
  rewrite (call_tool_settles repr g gateway i _ Hends). unfold Client.settle.
  destruct (Z.leb_spec 400 (Httpx.status_code response)); [| lia].
  destruct (String.eqb_spec (Httpx.content response) ""); [contradiction |].
  simpl. rewrite Hjson, new_error_with_dict, Hmsg. reflexivity.
Qed.

Lemma rejection_envelope_text_witness :
  run (always (Httpx.Responded not_found))
    (Server.call_tool plain_repr (Server.import ∅ (with_api_key "k-123"))
       (Server.CreateFinancialPlan [] [] (Some "u-1")))
  = [("status", VStr "error"); ("error", VStr "API Error 404: not found")].
Proof.
  apply (rejection_envelope_text plain_repr
           (Server.import ∅ (with_api_key "k-123"))
           (always (Httpx.Responded not_found))
           (Server.CreateFinancialPlan [] [] (Some "u-1"))
           not_found [("message", VStr "not found")] "not found").
  - apply ends_as_always.
  - simpl. lia.
  - discriminate.
  - reflexivity.
  - reflexivity.
Defined.
